(** * The form-selection components of the library catalog front-end

    A shallow embedding of
    [components/FormSelection/GenericModelSelect.jsx] (the version that
    takes [canSelectMultiple]) and of
    [components/genre/GenreMultiSelect.jsx], with the properties their
    specification states about them.

    The components are React function components.  Their local state
    ([useState] cells), the closure variables of one run of the effect,
    and everything they do to the outside (console calls, the HTTP request,
    the parent's callback) are threaded through a state monad whose state is
    the component's cells plus an ordered trace of the outside calls. *)

From Stdlib Require Import String Ascii List Bool Arith ZArith NArith QArith Lia.
From Stdlib Require Import DecimalString.
From Stdlib Require DecimalFacts DecimalNat.
From ExtLib Require Import Structures.Monad Structures.MonadState.
From ExtLib Require Import Data.Monads.StateMonad.
Import ListNotations.
Import MonadNotation.

Local Open Scope list_scope.
Local Open Scope monad_scope.
Local Open Scope string_scope.

Set Warnings "-register-all".

(** ** The JavaScript values and coercions the components rely on *)

Module JS.

(** A Number, carried as the mathematical value its literal denotes.  The
    runtime value is the binary64 nearest to it, which is that value itself
    for every integer of magnitude at most 2^53 (database keys are such
    integers); rationals are kept in lowest terms. *)
Inductive JSNumber : Type :=
| NaN
| Infinity (negative : bool)
| NegZero
| Finite (q : Q).

Definition int (z : Z) : JSNumber := Finite (z # 1).

Inductive JSValue : Type :=
| VUndefined
| VNull
| VBool (b : bool)
| VNumber (n : JSNumber)
| VString (s : string)
| VArray (items : list JSValue).

(** *** ToNumber applied to a String (what unary [+] does to [option.value])

    Strings are sequences of code units below 256.  The grammar is
    ECMAScript's StringNumericLiteral: optional white space around an
    optional literal, which is a signed decimal literal (with [Infinity],
    a fraction and an exponent) or an unsigned binary, octal or
    hexadecimal integer.  Anything else is [NaN]. *)

Definition StrWhiteSpaceChar (c : ascii) : bool :=
  let n := N_of_ascii c in
  ((9 <=? n) && (n <=? 13) || (n =? 32) || (n =? 160))%N.

Fixpoint skip_white_space (s : string) : string :=
  match s with
  | String c s' => if StrWhiteSpaceChar c then skip_white_space s' else s
  | EmptyString => s
  end.

Definition only_white_space (s : string) : bool :=
  match skip_white_space s with
  | EmptyString => true
  | String _ _ => false
  end.

Definition digit_value (c : ascii) : option N :=
  let n := N_of_ascii c in
  if ((48 <=? n) && (n <=? 57))%N then Some (n - 48)%N
  else if ((97 <=? n) && (n <=? 102))%N then Some (n - 87)%N
  else if ((65 <=? n) && (n <=? 70))%N then Some (n - 55)%N
  else None.

Definition digit_in (radix : N) (c : ascii) : option N :=
  match digit_value c with
  | Some d => if (d <? radix)%N then Some d else None
  | None => None
  end.

(** Reads the longest run of digits of the radix at the head of [s]: the
    value read (continuing [acc]), how many digits, and what follows. *)
Fixpoint read_digits (radix : N) (s : string) (acc : N) (count : nat)
  : N * nat * string :=
  match s with
  | String c s' =>
      match digit_in radix c with
      | Some d => read_digits radix s' (acc * radix + d)%N (S count)
      | None => (acc, count, s)
      end
  | EmptyString => (acc, count, s)
  end.

Fixpoint strip_prefix (p s : string) : option string :=
  match p, s with
  | EmptyString, _ => Some s
  | String a p', String b s' =>
      if Ascii.eqb a b then strip_prefix p' s' else None
  | String _ _, EmptyString => None
  end.

(** ExponentPart_opt followed by trailing white space up to the end. *)
Definition ExponentPart_opt (s : string) : option Z :=
  match s with
  | String c r =>
      if (Ascii.eqb c "e" || Ascii.eqb c "E")%bool then
        let '(negative, r1) :=
          match r with
          | String "+"%char r' => (false, r')
          | String "-"%char r' => (true, r')
          | _ => (false, r)
          end in
        let '(v, n, rest) := read_digits 10 r1 0 0 in
        if (n =? 0)%nat then None
        else if only_white_space rest
             then Some (if negative then - Z.of_N v else Z.of_N v)%Z
             else None
      else if only_white_space s then Some 0%Z else None
  | EmptyString => Some 0%Z
  end.

Definition StrUnsignedDecimalLiteral (s : string) : option JSNumber :=
  match strip_prefix "Infinity" s with
  | Some rest => if only_white_space rest then Some (Infinity false) else None
  | None =>
      let '(ip, ni, r1) := read_digits 10 s 0 0 in
      let '(m, nf, r2) :=
        match r1 with
        | String "."%char r => read_digits 10 r ip 0
        | _ => (ip, 0%nat, r1)
        end in
      if ((ni =? 0)%nat && (nf =? 0)%nat)%bool then None
      else
        match ExponentPart_opt r2 with
        | Some e =>
            Some (Finite (Qred (inject_Z (Z.of_N m)
                                * Qpower (10 # 1) (e - Z.of_nat nf))))
        | None => None
        end
  end.

Definition negate (n : JSNumber) : JSNumber :=
  match n with
  | NaN => NaN
  | Infinity b => Infinity (negb b)
  | NegZero => Finite 0
  | Finite q => if Qeq_bool q 0 then NegZero else Finite (Qred (- q))
  end.

Definition StrDecimalLiteral (s : string) : option JSNumber :=
  match s with
  | String "+"%char r => StrUnsignedDecimalLiteral r
  | String "-"%char r => option_map negate (StrUnsignedDecimalLiteral r)
  | _ => StrUnsignedDecimalLiteral s
  end.

Definition radix_of_prefix (c : ascii) : option N :=
  if (Ascii.eqb c "x" || Ascii.eqb c "X")%bool then Some 16%N
  else if (Ascii.eqb c "o" || Ascii.eqb c "O")%bool then Some 8%N
  else if (Ascii.eqb c "b" || Ascii.eqb c "B")%bool then Some 2%N
  else None.

Definition NonDecimalIntegerLiteral (s : string) : option JSNumber :=
  match s with
  | String "0"%char (String c r) =>
      match radix_of_prefix c with
      | Some radix =>
          let '(v, n, rest) := read_digits radix r 0 0 in
          if (n =? 0)%nat then None
          else if only_white_space rest then Some (int (Z.of_N v)) else None
      | None => None
      end
  | _ => None
  end.

Definition StringToNumber (s : string) : JSNumber :=
  match skip_white_space s with
  | EmptyString => Finite 0
  | literal =>
      match NonDecimalIntegerLiteral literal with
      | Some n => n
      | None =>
          match StrDecimalLiteral literal with
          | Some n => n
          | None => NaN
          end
      end
  end.

(** Unary [+] on the string a form control reports. *)
Definition unary_plus (s : string) : JSValue := VNumber (StringToNumber s).

(** ToString of a length or index, as a template literal prints it. *)
Definition nat_to_string (n : nat) : string :=
  NilZero.string_of_uint (Nat.to_uint n).

End JS.

Import JS.

(** ** The browser and library objects the components touch *)

Module Dom.

(** An [<option>] of the control; its [value] is always a string. *)
Record HTMLOptionElement : Type := { value : string }.

(** The [<select>] a change event targets.  [selectedOptions] lists the
    selected options in the order of the control. *)
Record HTMLSelectElement : Type :=
  { selectedOptions : list HTMLOptionElement }.

(** [target.value]: the value of the first selected option, and the empty
    string when nothing is selected. *)
Definition select_value (target : HTMLSelectElement) : string :=
  match selectedOptions target with
  | o :: _ => value o
  | [] => ""
  end.

End Dom.

Module Api.

(** A record of a [results] array, with the properties the catalog API
    serialises.  [None] is a property the object does not have, which
    reads as [undefined]. *)
Record ModelRecord : Type :=
  { url : option string;
    id : option Z;
    name : option string;
    first_name : option string;
    last_name : option string;
    date_of_birth : option string;
    date_of_death : option string;
    books : option (list string) }.

(** The object literal [{ id: i, name: n }]. *)
Definition id_name (i : option Z) (n : option string) : ModelRecord :=
  {| url := None; id := i; name := n; first_name := None;
     last_name := None; date_of_birth := None; date_of_death := None;
     books := None |}.

Record ResponseData : Type := { results : list ModelRecord }.

(** What [axios.get] resolves with. *)
Record Response : Type := { status : Z; data : ResponseData }.

(** What it rejects with: an [Error] object ([AxiosError] on a transport
    failure or timeout, [CanceledError] after an abort). *)
Record ErrorObject : Type := { error_name : string; error_message : string }.

Definition CanceledError : ErrorObject :=
  {| error_name := "CanceledError"; error_message := "canceled" |}.

Inductive Settlement : Type :=
| Fulfilled (response : Response)
| Rejected (reason : ErrorObject).

Record RequestConfig : Type := { timeout : Z }.

(** ToString of a string property that may be missing. *)
Definition property_to_string (p : option string) : string :=
  match p with
  | Some s => s
  | None => "undefined"
  end.

End Api.

Import Dom Api.

(** ** Component state and the trace of outside calls *)

(** The values the [error] cell takes: [null] at first, [false] after a
    response, a message built by the component, or a rejection reason. *)
Inductive ErrorValue : Type :=
| ENull
| EFalse
| EMessage (message : string)
| EThrown (reason : ErrorObject).

Definition truthy (e : ErrorValue) : bool :=
  match e with
  | ENull | EFalse => false
  | EMessage s => negb (s =? "")
  | EThrown _ => true
  end.

(** [`${error}`]; an [Error] prints as [Error.prototype.toString] does. *)
Definition error_to_string (e : ErrorValue) : string :=
  match e with
  | ENull => "null"
  | EFalse => "false"
  | EMessage s => s
  | EThrown r =>
      if error_name r =? "" then error_message r
      else if error_message r =? "" then error_name r
      else error_name r ++ ": " ++ error_message r
  end.

Module ChangeObject.
(** The payload handed to the parent's callback. *)
Record t : Type := { modelName : string; selectedValues : JSValue }.
End ChangeObject.

Record ComponentState : Type :=
  { models : list ModelRecord;
    isLoading : bool;
    error : ErrorValue }.

Inductive ConsoleMethod : Type :=
| group | groupEnd | info | log | warn | error_.

Inductive LogArg : Type :=
| LString (s : string)
| LValue (v : JSValue)
| LSelectedOptions (options : list HTMLOptionElement)
| LResponse (response : Response)
| LData (responseData : ResponseData)
| LError (reason : ErrorObject)
| LChangeObject (changeObject : ChangeObject.t).

(** One call that leaves the function: to the console, to a state setter,
    to axios, or to the parent's [onChange]. *)
Inductive Effect : Type :=
| Console (method : ConsoleMethod) (args : list LogArg)
| SetModels (v : list ModelRecord)
| SetIsLoading (v : bool)
| SetError (v : ErrorValue)
| AxiosGet (url : string) (config : RequestConfig)
| ParentOnChange (changeObject : ChangeObject.t).

Record World : Type :=
  { cells : ComponentState;
    trace : list Effect }.

Definition M : Type -> Type := state World.

Definition emit (e : Effect) : M unit :=
  w <- get ;;
  put {| cells := cells w; trace := (trace w ++ [e])%list |}.

Definition update (f : ComponentState -> ComponentState) : M unit :=
  w <- get ;;
  put {| cells := f (cells w); trace := trace w |}.

Definition console (method : ConsoleMethod) (args : list LogArg) : M unit :=
  emit (Console method args).

Definition setModels (v : list ModelRecord) : M unit :=
  emit (SetModels v) ;;
  update (fun c => {| models := v; isLoading := isLoading c; error := error c |}).

Definition setIsLoading (v : bool) : M unit :=
  emit (SetIsLoading v) ;;
  update (fun c => {| models := models c; isLoading := v; error := error c |}).

Definition setError (v : ErrorValue) : M unit :=
  emit (SetError v) ;;
  update (fun c => {| models := models c; isLoading := isLoading c; error := v |}).

Definition axios_get (url : string) (config : RequestConfig) : M unit :=
  emit (AxiosGet url config).

(** The cells as [useState] initialises them, and nothing done yet. *)
Definition initial_state : ComponentState :=
  {| models := []; isLoading := false; error := ENull |}.

Definition initial_world : World :=
  {| cells := initial_state; trace := [] |}.

Definition exec {A : Type} (c : M A) (w : World) : World := execState c w.
Definition eval {A : Type} (c : M A) (w : World) : A := evalState c w.

(** ** GenericModelSelect *)

Module GenericModelSelect.

(** The closure variables of one run of the effect: the flag its cleanup
    raises, and whether its [AbortController] has been aborted. *)
Record EffectClosure : Type :=
  { ignore_request_output : bool;
    controller_aborted : bool }.

(** What the component returns: the select with the fetched options, or the
    disabled select with one line of text. *)
Record MultiSelectItem : Type :=
  { key : option Z; item_id : option Z; item_name : option string }.

Inductive Content : Type :=
| OptionsSelect (value : JSValue) (name : string) (size : string)
    (aria_label : string) (multiple : bool) (disabled : bool)
    (items : list MultiSelectItem) (caption : option string)
| MessageSelect (size : string) (aria_label : string) (disabled : bool)
    (only_value_text : option string).

Record FormGroup : Type :=
  { controlId : string; label : string; content : Content }.

Section Props.

Variable parentFormName : string.
Variable modelName : string.
Variable selectedValues : JSValue.
Variable canSelectMultiple : bool.

Definition getAPIRouteFromModelName (modelName : string) : M string :=
  let isBook := modelName =? "book" in
  let isBookInstance := modelName =? "bookinstance" in
  let isAuthor := modelName =? "author" in
  let isGenre := modelName =? "genre" in
  let isLanguage := modelName =? "language" in
  if (isBook || isBookInstance || isAuthor || isGenre || isLanguage)%bool
  then ret (modelName ++ "s")
  else
    let error := "Given invalid modelName in API route selector:" ++ modelName in
    console error_ [LString error] ;;
    setError (EMessage error) ;;
    ret "".

Definition shapeAuthorResults (authorArray : list ModelRecord)
  : list ModelRecord :=
  map (fun author =>
         let name := property_to_string (first_name author) ++ " "
                     ++ property_to_string (last_name author) in
         id_name (id author) (Some name))
      authorArray.

Definition parseModelListForFormOptions (responseData : ResponseData)
  : M (list ModelRecord) :=
  console group [LString "Parsing Model List"] ;;
  let isBook := modelName =? "book" in
  let isBookInstance := modelName =? "bookinstance" in
  let isAuthor := modelName =? "author" in
  let isGenre := modelName =? "genre" in
  let isLanguage := modelName =? "language" in
  console info [LString modelName; LString "with responseData:";
                LData responseData] ;;
  let output := [] in
  if isBook then
    ret [ id_name (Some 1%Z) (Some "DUMMY BOOK");
          id_name (Some 2%Z) (Some "SECOND DUMMY BOOK") ]
  else if isBookInstance then
    ret [ id_name (Some 1%Z) (Some "DUMMY BOOK INSTANCE");
          id_name (Some 2%Z) (Some "SECOND DUMMY INSTANCE") ]
  else if isAuthor then
    ret (shapeAuthorResults (results responseData))
  else if isGenre then
    ret (results responseData)
  else if isLanguage then
    ret (results responseData)
  else
    let error := "Given invalid modelName in generic model select:" ++ modelName in
    console error_ [LString error] ;;
    setError (EMessage error) ;;
    ret output.

(** The body of [fetchModelHandler] up to and including the call of
    [axios.get]; the handlers chained on its promise follow. *)
Definition fetchModelHandler : M unit :=
  setIsLoading true ;;
  setError ENull ;;
  modelAPIRoute <- getAPIRouteFromModelName modelName ;;
  axios_get ("http://localhost:8000/api/" ++ modelAPIRoute ++ "/")
            {| timeout := 5000 |}.

(** [.then(response => ...)] *)
Definition then_response (response : Response) : M ResponseData :=
  console info [LString "axios successfully returned with:";
                LResponse response] ;;
  ret (data response).

(** [.then((data) => ...)], reading the closure's flag when it runs. *)
Definition then_data (closure : EffectClosure) (data : ResponseData)
  : M unit :=
  (if negb (ignore_request_output closure) then
     setError EFalse ;;
     console info [LString "received data"; LData data] ;;
     responseModels <- parseModelListForFormOptions data ;;
     setIsLoading false ;;
     setModels responseModels
   else
     console warn
       [LString "received request where ignore_request_output was True";
        LData data]) ;;
  console groupEnd [].

(** [.catch(error => ...)].  It is reached by a rejection of the request;
    over well-typed responses the two handlers before it do not throw. *)
Definition catch_error (error : ErrorObject) : M unit :=
  console error_ [LString "RECEIVED AXIOS ERROR:"; LError error] ;;
  console groupEnd [] ;;
  setIsLoading false ;;
  setError (EThrown error).

(** The function given to [useEffect]: it starts the request and hands
    back the closure its cleanup acts on. *)
Definition useEffect : M EffectClosure :=
  let ignore_request_output := false in
  fetchModelHandler ;;
  ret {| ignore_request_output := ignore_request_output;
         controller_aborted := false |}.

(** The cleanup function the effect returns. *)
Definition cleanup (closure : EffectClosure) : EffectClosure :=
  {| ignore_request_output := true; controller_aborted := true |}.

(** The promise chain when the request settles. *)
Definition settle (closure : EffectClosure) (s : Settlement) : M unit :=
  match s with
  | Fulfilled response =>
      data <- then_response response ;;
      then_data closure data
  | Rejected reason => catch_error reason
  end.

Definition handleSelectChange (target : HTMLSelectElement) : M unit :=
  console group [LString ("Generic (" ++ modelName
                          ++ ") Model Select Change Handler")] ;;
  selected <-
    (if canSelectMultiple then
       let htmlSelected := selectedOptions target in
       let selected :=
         VArray (map (fun option => unary_plus (value option)) htmlSelected) in
       console log [LString "multi selected:"; LValue selected] ;;
       ret selected
     else
       let selected := VString (select_value target) in
       console log [LString "single selected:"; LValue selected] ;;
       ret selected) ;;
  let changeObject :=
    {| ChangeObject.modelName := modelName;
       ChangeObject.selectedValues := selected |} in
  console info [LString "sending up changeObject:";
                LChangeObject changeObject; LString "to parent"] ;;
  console groupEnd [] ;;
  emit (ParentOnChange changeObject).

(** The render: what the component returns for the current cells. *)
Definition render (state : ComponentState) : FormGroup :=
  let models := models state in
  let error := error state in
  let isLoading := isLoading state in
  let controlId := parentFormName ++ modelName in
  let content :=
    if ((0 <? length models)%nat && negb (truthy error))%bool then
      OptionsSelect
        selectedValues
        modelName
        (nat_to_string
           (if (length models <=? 8)%nat then length models else 8%nat))
        (modelName ++ " "
         ++ (if canSelectMultiple then "Multi-Select" else "Select"))
        canSelectMultiple
        (truthy error)
        (map (fun m => {| key := id m; item_id := id m;
                          item_name := name m |}) models)
        (if canSelectMultiple
         then Some "ctrl/cmd + click to select multiple" else None)
    else
      let only_value_text := None in
      let only_value_text :=
        if (length models =? 0)%nat
        then Some ("No " ++ modelName ++ " s Found") else only_value_text in
      let only_value_text :=
        if truthy error
        then Some (error_to_string error) else only_value_text in
      let only_value_text :=
        if isLoading then Some "Loading..." else only_value_text in
      MessageSelect "1" (modelName ++ " Select") true only_value_text in
  {| controlId := controlId;
     label := modelName ++ (if canSelectMultiple then "(s)" else "");
     content := content |}.

End Props.

End GenericModelSelect.

(** ** GenreMultiSelect *)

Module GenreMultiSelect.

Definition handleSelectChange (target : HTMLSelectElement) : M unit :=
  let selectedOptions := selectedOptions target in
  console group [LString "Genre Select Change Handler"] ;;
  console info [LSelectedOptions selectedOptions] ;;
  let options_array :=
    VArray (map (fun option => unary_plus (value option)) selectedOptions) in
  console info [LValue options_array] ;;
  console groupEnd [].

(** The three fixed options of the control, as [(value, text)]. *)
Definition options : list (string * string) :=
  [("1", "One"); ("2", "Two"); ("3", "Three")].

End GenreMultiSelect.

(** ** Observations on a trace, and the life of one mounted instance *)

(** The payloads handed to the parent's callback, in order. *)
Fixpoint emitted (t : list Effect) : list ChangeObject.t :=
  match t with
  | ParentOnChange c :: t' => c :: emitted t'
  | _ :: t' => emitted t'
  | [] => []
  end.

(** The HTTP requests issued, in order. *)
Fixpoint requests (t : list Effect) : list (string * RequestConfig) :=
  match t with
  | AxiosGet u c :: t' => (u, c) :: requests t'
  | _ :: t' => requests t'
  | [] => []
  end.

Definition is_state_update (e : Effect) : bool :=
  match e with
  | SetModels _ | SetIsLoading _ | SetError _ => true
  | _ => false
  end.

(** The calls of state setters, in order. *)
Definition state_updates (t : list Effect) : list Effect :=
  filter is_state_update t.

Definition is_console (e : Effect) : bool :=
  match e with
  | Console _ _ => true
  | _ => false
  end.

Module Lifecycle.

Import GenericModelSelect.

(** A fresh instance after its effect has run: the request is in flight. *)
Definition mounted (modelName : string) : EffectClosure * World :=
  runState (useEffect modelName) initial_world.

(** The instance once the request has settled, its cleanup having run
    first when [unmounted] is set. *)
Definition settled (modelName : string) (unmounted : bool) (s : Settlement)
  : World :=
  let '(closure, w) := mounted modelName in
  exec (settle modelName (if unmounted then cleanup closure else closure) s) w.

(** What a settled instance displays. *)
Definition displayed (parentFormName modelName : string)
  (selectedValues : JSValue) (canSelectMultiple : bool) (unmounted : bool)
  (s : Settlement) : Content :=
  content (render parentFormName modelName selectedValues canSelectMultiple
             (cells (settled modelName unmounted s))).

(** The double run of the effect that [React.StrictMode] (the root in
    [main.jsx]) makes on a mounting instance: effect, cleanup, effect again
    on the same cells; the first request, aborted by the cleanup, then
    rejects while the second is still in flight. *)
Definition strict_mode_first_rejection (modelName : string) : World :=
  let '(first, w1) := runState (useEffect modelName) initial_world in
  let first := cleanup first in
  let '(second, w2) := runState (useEffect modelName) w1 in
  exec (settle modelName first (Rejected CanceledError)) w2.

End Lifecycle.

Definition ok (results : list ModelRecord) : Settlement :=
  Fulfilled {| status := 200; data := {| results := results |} |}.

(** The five model names the component documents as acceptable. *)
Definition model_kinds : list string :=
  ["book"; "bookinstance"; "author"; "genre"; "language"].

(** The placeholder records of the two kinds that are not fetched. *)
Definition book_placeholders : list ModelRecord :=
  [ id_name (Some 1%Z) (Some "DUMMY BOOK");
    id_name (Some 2%Z) (Some "SECOND DUMMY BOOK") ].

Definition bookinstance_placeholders : list ModelRecord :=
  [ id_name (Some 1%Z) (Some "DUMMY BOOK INSTANCE");
    id_name (Some 2%Z) (Some "SECOND DUMMY INSTANCE") ].

Definition select_size (c : GenericModelSelect.Content) : string :=
  match c with
  | GenericModelSelect.OptionsSelect _ _ size _ _ _ _ _ => size
  | GenericModelSelect.MessageSelect size _ _ _ => size
  end.

Definition is_options_select (c : GenericModelSelect.Content) : bool :=
  match c with
  | GenericModelSelect.OptionsSelect _ _ _ _ _ _ _ _ => true
  | GenericModelSelect.MessageSelect _ _ _ _ => false
  end.

(** ** The element behind [Form.Select] *)

Module ReactBootstrap.

(** The [<select>] element in the page, with the attributes that decide how
    it is shown.  [size_attribute] is the HTML [size] attribute, [None] when
    the element has none. *)
Record SelectElement : Type :=
  { className : string;
    element_id : string;
    size_attribute : option nat;
    multiple_attribute : bool;
    disabled_attribute : bool }.

(** [Form.Select] of react-bootstrap 2, the library the components import.
    Its [size] prop is the size variant of the control: when truthy it is
    appended to the class, as [form-select-<size>].  The HTML [size]
    attribute is set from another prop, [htmlSize].  The id is the
    [controlId] of the enclosing [Form.Group]; [multiple] and [disabled] go
    to the element as they are. *)
Definition FormSelect (controlId : string) (size : option string)
  (htmlSize : option nat) (multiple disabled : bool) : SelectElement :=
  {| className :=
       match size with
       | Some variant =>
           if variant =? "" then "form-select"
           else "form-select form-select-" ++ variant
       | None => "form-select"
       end;
     element_id := controlId;
     size_attribute := htmlSize;
     multiple_attribute := multiple;
     disabled_attribute := disabled |}.


(** The display size of the HTML Standard, the number of rows the control
    shows: the [size] attribute when present, else 4 for a [multiple]
    select and 1 otherwise. *)
Definition display_size (e : SelectElement) : nat :=
  match size_attribute e with
  | Some n => n
  | None => if multiple_attribute e then 4%nat else 1%nat
  end.

End ReactBootstrap.

(** The element in the page for what the component returns.  Both branches
    of the render give [Form.Select] a [size] prop and no [htmlSize]; the
    one-row select is not given [multiple]. *)
Definition rendered_select (g : GenericModelSelect.FormGroup)
  : ReactBootstrap.SelectElement :=
  match GenericModelSelect.content g with
  | GenericModelSelect.OptionsSelect _ _ size _ multiple disabled _ _ =>
      ReactBootstrap.FormSelect (GenericModelSelect.controlId g) (Some size)
        None multiple disabled
  | GenericModelSelect.MessageSelect size _ disabled _ =>
      ReactBootstrap.FormSelect (GenericModelSelect.controlId g) (Some size)
        None false disabled
  end.

(** ** The normalisation table of the specification *)

(** A record as the table expects it for a kind: a key, and the fields the
    kind's rule reads. *)
Definition well_formed_record (modelName : string) (r : ModelRecord) : bool :=
  match id r with
  | None => false
  | Some _ =>
      if modelName =? "author" then
        match first_name r, last_name r with
        | Some _, Some _ => true
        | _, _ => false
        end
      else
        match name r with
        | Some _ => true
        | None => false
        end
  end.

(** The name the table gives a record: first and last name joined by one
    space for an author, the [name] field as it is for a genre or a
    language. *)
Definition table_name (modelName : string) (r : ModelRecord) : option string :=
  if modelName =? "author" then
    match first_name r, last_name r with
    | Some first, Some last => Some (first ++ " " ++ last)
    | _, _ => None
    end
  else if ((modelName =? "genre") || (modelName =? "language"))%bool then
    name r
  else None.

(** * Properties *)

Import GenericModelSelect.

(** ** Unary plus on the strings of a control *)

Example StringToNumber_samples :
  map StringToNumber
      ["1"; "3"; ""; "  42 "; "007"; "-5"; "+5"; "1.5"; ".5"; "1."; "1e3";
       "25e-1"; "0x1F"; "0b101"; "0o17"; "-0"; "Infinity"; "-Infinity"]
  = [int 1; int 3; int 0; int 42; int 7; int (-5); int 5; Finite (3 # 2);
     Finite (1 # 2); int 1; int 1000; Finite (5 # 2); int 31; int 5; int 15;
     NegZero; Infinity false; Infinity true].
Proof. vm_compute. reflexivity. Qed.

Example StringToNumber_not_numeric :
  map StringToNumber
      ["abc"; "1 2"; "1e"; "."; "-"; "0x"; "-0x10"; "1_000"; "infinity";
       "12px"; "e5"; "1.2.3"; "0b12"; "- 5"; "+"]
  = repeat NaN 15.
Proof. vm_compute. reflexivity. Qed.

Lemma read_digits_uint (d : Decimal.uint) :
  forall (acc count : nat),
    read_digits 10 (NilEmpty.string_of_uint d) (N.of_nat acc) count
    = (N.of_nat (Nat.of_uint_acc d acc), (count + Decimal.nb_digits d)%nat, "").
Proof.
  induction d; intros acc count;
    cbn [NilEmpty.string_of_uint read_digits Nat.of_uint_acc Decimal.nb_digits].
  1: rewrite Nat.add_0_r; reflexivity.
  all: match goal with
       | |- context [digit_in ?r ?c] =>
           let v := eval vm_compute in (digit_in r c) in
           change (digit_in r c) with v
       end.
  all: cbv iota beta.
  all: match goal with
       | |- read_digits _ _ ?a _ = (N.of_nat (Nat.of_uint_acc _ ?b), _, _) =>
           replace a with (N.of_nat b) by (rewrite Nat.tail_mul_spec; lia)
       end.
  all: rewrite IHd; f_equal; f_equal; lia.
Qed.

Lemma read_all_digits (d : Decimal.uint) :
  read_digits 10 (NilEmpty.string_of_uint d) 0 0
  = (N.of_nat (Nat.of_uint d), Decimal.nb_digits d, "").
Proof. exact (read_digits_uint d 0 0). Qed.

Lemma to_uint_nonnil (n : nat) : Nat.to_uint n <> Decimal.Nil.
Proof.
  rewrite <- (DecimalNat.Unsigned.of_to n) at 1.
  rewrite DecimalNat.Unsigned.to_of. apply DecimalFacts.unorm_nonnil.
Qed.

Lemma Qred_integer (z : Z) :
  Qred (inject_Z z * Qpower (10 # 1) (0 - Z.of_nat 0)) = z # 1.
Proof.
  cbn. unfold Qmult. cbn. rewrite Z.mul_1_r.
  unfold Qred.
  pose proof (Z.ggcd_gcd z 1) as Hg.
  pose proof (Z.ggcd_correct_divisors z 1) as Hd.
  destruct (Z.ggcd z 1) as [g [a b]]. cbn in *.
  rewrite Z.gcd_1_r in Hg. subst g. destruct Hd as [Ha Hb].
  rewrite Z.mul_1_l in Ha, Hb. subst a b. reflexivity.
Qed.

Lemma skip_white_space_uint (d : Decimal.uint) :
  skip_white_space (NilEmpty.string_of_uint d) = NilEmpty.string_of_uint d.
Proof. destruct d; reflexivity. Qed.

Lemma NonDecimalIntegerLiteral_uint (d : Decimal.uint) :
  NonDecimalIntegerLiteral (NilEmpty.string_of_uint d) = None.
Proof.
  destruct d as [|d|d|d|d|d|d|d|d|d|d]; try reflexivity.
  destruct d; reflexivity.
Qed.

Lemma StrDecimalLiteral_uint (d : Decimal.uint) :
  d <> Decimal.Nil ->
  StrDecimalLiteral (NilEmpty.string_of_uint d)
  = Some (int (Z.of_nat (Nat.of_uint d))).
Proof.
  intros Hnil.
  assert (Hsign : StrDecimalLiteral (NilEmpty.string_of_uint d)
                  = StrUnsignedDecimalLiteral (NilEmpty.string_of_uint d))
    by (destruct d; reflexivity).
  assert (Hinf : strip_prefix "Infinity" (NilEmpty.string_of_uint d) = None)
    by (destruct d; [congruence | reflexivity ..]).
  assert (Hnb : (Decimal.nb_digits d =? 0)%nat = false)
    by (destruct d; [congruence | reflexivity ..]).
  rewrite Hsign. unfold StrUnsignedDecimalLiteral.
  rewrite Hinf, read_all_digits, Hnb. cbn [andb ExponentPart_opt].
  rewrite Qred_integer. unfold int. rewrite nat_N_Z. reflexivity.
Qed.

Lemma StringToNumber_literal (s : string) :
  skip_white_space s = s ->
  s <> "" ->
  StringToNumber s
  = match NonDecimalIntegerLiteral s with
    | Some n => n
    | None => match StrDecimalLiteral s with Some n => n | None => NaN end
    end.
Proof.
  intros Hskip Hne. unfold StringToNumber. rewrite Hskip.
  destruct s; [congruence | reflexivity].
Qed.

Lemma string_of_uint_nonempty (d : Decimal.uint) :
  d <> Decimal.Nil -> NilEmpty.string_of_uint d <> "".
Proof. destruct d; [congruence | discriminate ..]. Qed.

(** Unary [+] undoes the decimal printing of a natural number: a key
    written into an option's [value] comes back as that number (in the
    browser, for keys up to 2^53, which binary64 holds exactly). *)
Lemma StringToNumber_nat_to_string (n : nat) :
  StringToNumber (nat_to_string n) = int (Z.of_nat n).
Proof.
  pose proof (to_uint_nonnil n) as Hnil.
  assert (E : nat_to_string n = NilEmpty.string_of_uint (Nat.to_uint n)).
  { unfold nat_to_string, NilZero.string_of_uint.
    destruct (Nat.to_uint n); [congruence | reflexivity ..]. }
  rewrite E, StringToNumber_literal.
  - rewrite NonDecimalIntegerLiteral_uint, (StrDecimalLiteral_uint _ Hnil).
    rewrite DecimalNat.Unsigned.of_to. reflexivity.
  - apply skip_white_space_uint.
  - apply string_of_uint_nonempty, Hnil.
Qed.

(** ** Traces *)

Lemma emitted_app (t u : list Effect) :
  emitted (t ++ u) = (emitted t ++ emitted u)%list.
Proof.
  induction t as [|e t IH]; [reflexivity|].
  destruct e; cbn; rewrite IH; reflexivity.
Qed.

Lemma requests_app (t u : list Effect) :
  requests (t ++ u) = (requests t ++ requests u)%list.
Proof.
  induction t as [|e t IH]; [reflexivity|].
  destruct e; cbn; rewrite IH; reflexivity.
Qed.

Lemma state_updates_app (t u : list Effect) :
  state_updates (t ++ u) = (state_updates t ++ state_updates u)%list.
Proof. apply filter_app. Qed.

(** Normalises a trace that grew by single calls and reads off what an
    observation sees in it. *)
Ltac observe :=
  cbn;
  repeat rewrite <- List.app_assoc;
  repeat (rewrite emitted_app || rewrite requests_app
          || rewrite state_updates_app);
  cbn;
  repeat rewrite List.app_nil_r.

(** ** The two kinds that are not fetched *)

(** The parser answers [book] and [bookinstance] with its fixed records
    whatever the response holds, and touches no state cell. *)
Lemma parse_book_kinds (responseData : ResponseData) (w : World) :
  eval (parseModelListForFormOptions "book" responseData) w = book_placeholders
  /\ eval (parseModelListForFormOptions "bookinstance" responseData) w
     = bookinstance_placeholders
  /\ cells (exec (parseModelListForFormOptions "book" responseData) w) = cells w
  /\ cells (exec (parseModelListForFormOptions "bookinstance" responseData) w)
     = cells w.
Proof. repeat split. Qed.



(** A name outside the five documented ones is what ends in the error
    state: the message of the parser is stored and displayed. *)
Lemma unsupported_name_surfaces_error
  (modelName parentFormName : string) (selectedValues : JSValue)
  (canSelectMultiple : bool) (response : Response) :
  existsb (String.eqb modelName) model_kinds = false ->
  let message := "Given invalid modelName in generic model select:" ++ modelName in
  cells (Lifecycle.settled modelName false (Fulfilled response))
  = {| models := []; isLoading := false; error := EMessage message |}
  /\ Lifecycle.displayed parentFormName modelName selectedValues
       canSelectMultiple false (Fulfilled response)
     = MessageSelect "1" (modelName ++ " Select") true (Some message).
Proof.
  intros H. cbn [existsb model_kinds] in H.
  repeat (apply orb_false_iff in H; destruct H as [? H]).
  unfold Lifecycle.displayed, Lifecycle.settled, Lifecycle.mounted, useEffect,
    fetchModelHandler, getAPIRouteFromModelName, settle, then_data,
    parseModelListForFormOptions, render.
  repeat match goal with
         | E : (modelName =? _) = false |- _ => rewrite E; clear E
         end.
  split; reflexivity.
Qed.

(** ** Settling after the cleanup *)

(** The fulfilment handler honours the flag: after the cleanup it calls no
    setter and leaves every cell as it was. *)
Lemma fulfilled_after_cleanup_is_discarded
  (modelName : string) (closure : EffectClosure) (response : Response)
  (w : World) :
  let w' := exec (settle modelName (cleanup closure) (Fulfilled response)) w in
  cells w' = cells w /\ state_updates (trace w') = state_updates (trace w).
Proof. split; [reflexivity|]. observe. reflexivity. Qed.

(** The rejection handler does not read the flag: it sets [isLoading] and
    [error] whether or not the cleanup has run. *)
Lemma rejected_is_always_applied
  (modelName : string) (closure : EffectClosure) (reason : ErrorObject)
  (w : World) :
  let w' := exec (settle modelName closure (Rejected reason)) w in
  cells w' = {| models := models (cells w); isLoading := false;
                error := EThrown reason |}
  /\ state_updates (trace w')
     = (state_updates (trace w)
        ++ [SetIsLoading false; SetError (EThrown reason)])%list.
Proof. split; [reflexivity|]. observe. reflexivity. Qed.

(** C2 at the failing run: a [genre] instance is mounted, its cleanup runs,
    and the aborted request then rejects with [CanceledError].  The rejection
    handler still calls [setIsLoading(false)] and [setError(error)], so two
    cells change after the cleanup. *)
Theorem C2_rejection_after_cleanup_updates_state :
  let w := snd (Lifecycle.mounted "genre") in
  let w' := Lifecycle.settled "genre" true (Rejected CanceledError) in
  cells w = {| models := []; isLoading := true; error := ENull |}
  /\ cells w' = {| models := []; isLoading := false;
                   error := EThrown CanceledError |}
  /\ state_updates (trace w')
     = (state_updates (trace w)
        ++ [SetIsLoading false; SetError (EThrown CanceledError)])%list
  /\ cells w' <> cells w.
Proof. repeat split. intros H. discriminate H. Qed.

(** Under the double run of the effect the cells are those of the live
    instance: the cancellation of the first request ends the loading state
    and is displayed as the error while the second request is in flight. *)
Lemma strict_mode_shows_cancellation
  (parentFormName : string) (selectedValues : JSValue)
  (canSelectMultiple : bool) :
  let w := Lifecycle.strict_mode_first_rejection "genre" in
  cells w = {| models := []; isLoading := false;
               error := EThrown CanceledError |}
  /\ length (requests (trace w)) = 2%nat
  /\ content (render parentFormName "genre" selectedValues canSelectMultiple
                (cells w))
     = MessageSelect "1" "genre Select" true (Some "CanceledError: canceled").
Proof. repeat split. Qed.

(** ** Selection *)

(** C3: on a change of a multi-select, exactly one payload goes to the
    parent, and its [selectedValues] is the array of the selected options'
    values, each put through unary [+], in the control's order; options
    ["1"] and ["3"] give the numbers [1, 3], not the strings. *)
Theorem C3_multi_select_emits_numbers :
  (forall (modelName : string) (target : HTMLSelectElement) (w : World),
      emitted (trace (exec (handleSelectChange modelName true target) w))
      = (emitted (trace w)
         ++ [ {| ChangeObject.modelName := modelName;
                 ChangeObject.selectedValues :=
                   VArray (map (fun o => VNumber (StringToNumber (value o)))
                             (selectedOptions target)) |} ])%list)
  /\ (forall (modelName : string),
         emitted (trace (exec (handleSelectChange modelName true
                                 {| selectedOptions :=
                                      [ {| value := "1" |}; {| value := "3" |} ] |})
                           initial_world))
         = [ {| ChangeObject.modelName := modelName;
                ChangeObject.selectedValues :=
                  VArray [VNumber (int 1); VNumber (int 3)] |} ])
  /\ VArray [VNumber (int 1); VNumber (int 3)]
     <> VArray [VString "1"; VString "3"].
Proof.
  split; [|split].
  - intros. observe. reflexivity.
  - intros. reflexivity.
  - intros H. discriminate H.
Qed.

(** C7: on a change of a single-select, exactly one payload goes to the
    parent and its [selectedValues] is the control's string value as it is;
    in either mode every payload of the handler carries the model name the
    component was given. *)
Theorem C7_single_select_emits_raw_value :
  (forall (modelName : string) (target : HTMLSelectElement) (w : World),
      emitted (trace (exec (handleSelectChange modelName false target) w))
      = (emitted (trace w)
         ++ [ {| ChangeObject.modelName := modelName;
                 ChangeObject.selectedValues :=
                   VString (select_value target) |} ])%list)
  /\ (forall (modelName : string) (canSelectMultiple : bool)
             (target : HTMLSelectElement),
         exists selected : JSValue,
           emitted (trace (exec (handleSelectChange modelName canSelectMultiple
                                   target) initial_world))
           = [ {| ChangeObject.modelName := modelName;
                  ChangeObject.selectedValues := selected |} ])
  /\ (forall (modelName v : string) (others : list HTMLOptionElement),
         emitted (trace (exec (handleSelectChange modelName false
                                 {| selectedOptions := {| value := v |} :: others |})
                           initial_world))
         = [ {| ChangeObject.modelName := modelName;
                ChangeObject.selectedValues := VString v |} ]).
Proof.
  split; [|split].
  - intros. observe. reflexivity.
  - intros modelName [] target; eexists; reflexivity.
  - intros. reflexivity.
Qed.

(** C9: the handler of GenreMultiSelect computes the array of the selected
    values put through unary [+] (the array the generic multi-select would
    emit), logs it, and does nothing else: no payload reaches a parent and
    no cell changes. *)
Theorem C9_genre_multi_select_only_logs :
  forall (target : HTMLSelectElement) (w : World),
    let w' := exec (GenreMultiSelect.handleSelectChange target) w in
    let options_array :=
      VArray (map (fun o => VNumber (StringToNumber (value o)))
                (selectedOptions target)) in
    trace w'
    = (trace w
       ++ [ Console group [LString "Genre Select Change Handler"];
            Console info [LSelectedOptions (selectedOptions target)];
            Console info [LValue options_array];
            Console groupEnd [] ])%list
    /\ emitted (trace w') = emitted (trace w)
    /\ cells w' = cells w
    /\ (forall modelName : string,
           map ChangeObject.selectedValues
             (emitted (trace (exec (handleSelectChange modelName true target)
                                initial_world)))
           = [options_array]).
Proof.
  intros target w. cbn. repeat split.
  - repeat rewrite <- app_assoc. reflexivity.
  - observe. reflexivity.
Qed.

(** ** Normalisation *)

(** C4: an author record with first and last name becomes the option whose
    name is the first name, one space, the last name, and whose id is the
    record's id; this holds at every position of the array. *)
Theorem C4_author_name_is_first_space_last :
  forall (authorArray : list ModelRecord) (i : nat) (author : ModelRecord)
         (first last : string),
    nth_error authorArray i = Some author ->
    first_name author = Some first ->
    last_name author = Some last ->
    nth_error (shapeAuthorResults authorArray) i
    = Some (id_name (id author) (Some (first ++ " " ++ last))).
Proof.
  intros authorArray i author first last Hi Hf Hl.
  unfold shapeAuthorResults.
  rewrite nth_error_map, Hi. cbn.
  rewrite Hf, Hl. reflexivity.
Qed.

Lemma C4_jane_austen :
  let jane :=
    {| url := Some "http://localhost:8000/api/authors/7/"; id := Some 7%Z;
       name := None; first_name := Some "Jane"; last_name := Some "Austen";
       date_of_birth := Some "1775-12-16"; date_of_death := Some "1817-07-18";
       books := Some [] |} in
  nth_error (shapeAuthorResults [jane]) 0
  = Some (id_name (Some 7%Z) (Some "Jane Austen")).
Proof.
  intros jane.
  apply (C4_author_name_is_first_space_last [jane] 0 jane "Jane" "Austen");
    reflexivity.
Defined.

Lemma shapeAuthorResults_ids (l : list ModelRecord) :
  map id (shapeAuthorResults l) = map id l.
Proof.
  unfold shapeAuthorResults. rewrite map_map. apply map_ext. reflexivity.
Qed.

Lemma shapeAuthorResults_names (l : list ModelRecord) :
  forallb (well_formed_record "author") l = true ->
  map name (shapeAuthorResults l) = map (table_name "author") l.
Proof.
  induction l as [|r l IH]; [reflexivity|].
  cbn [forallb]. intros H. apply andb_prop in H as [Hr Hl].
  cbn [shapeAuthorResults map]. f_equal; [|exact (IH Hl)].
  unfold well_formed_record, table_name in *. cbn in *.
  destruct (id r); [|discriminate Hr].
  destruct (first_name r); [|discriminate Hr].
  destruct (last_name r); [|discriminate Hr].
  reflexivity.
Qed.

(** C5: for [author], [genre] and [language] and a response of well-formed
    records, the parser gives one option per record, in order, with the
    record's id and with the name of the table; the result does not depend
    on the component's state and no cell is written. *)
Theorem C5_one_option_per_record :
  forall (modelName : string) (responseData : ResponseData) (w : World),
    In modelName ["author"; "genre"; "language"] ->
    forallb (well_formed_record modelName) (results responseData) = true ->
    let options := eval (parseModelListForFormOptions modelName responseData) w in
    length options = length (results responseData)
    /\ map id options = map id (results responseData)
    /\ map name options = map (table_name modelName) (results responseData)
    /\ cells (exec (parseModelListForFormOptions modelName responseData) w)
       = cells w
    /\ (forall w' : World,
           eval (parseModelListForFormOptions modelName responseData) w'
           = options).
Proof.
  intros modelName responseData w Hkind Hwf.
  destruct Hkind as [<-|[<-|[<-|[]]]]; cbn.
  - repeat split.
    + unfold shapeAuthorResults. apply length_map.
    + apply shapeAuthorResults_ids.
    + apply shapeAuthorResults_names. exact Hwf.
  - repeat split.
  - repeat split.
Qed.

Lemma C5_three_genres :
  let genre i n :=
    {| url := None; id := Some i; name := Some n; first_name := None;
       last_name := None; date_of_birth := None; date_of_death := None;
       books := None |} in
  let responseData :=
    {| results := [genre 1%Z "Fantasy"; genre 2%Z "Western"; genre 3%Z "Haiku"] |} in
  let options :=
    eval (parseModelListForFormOptions "genre" responseData) initial_world in
  length options = 3%nat
  /\ map name options = [Some "Fantasy"; Some "Western"; Some "Haiku"].
Proof.
  intros genre responseData options.
  destruct (C5_one_option_per_record "genre" responseData initial_world)
    as (Hlen & _ & Hname & _).
  - cbn. tauto.
  - reflexivity.
  - split; [exact Hlen | exact Hname].
Defined.

(** ** Rendering *)

Lemma append_cancel_l (p a b : string) : p ++ a = p ++ b -> a = b.
Proof.
  induction p as [|c p IH]; cbn; intros H; [exact H|].
  injection H as H. exact (IH H).
Qed.

(** With no options, no error and no loading, the text is assembled with a
    space between the model name and the [s]. *)
Lemma empty_models_text
  (parentFormName modelName : string) (selectedValues : JSValue)
  (canSelectMultiple : bool) (state : ComponentState) :
  models state = [] ->
  truthy (error state) = false ->
  isLoading state = false ->
  content (render parentFormName modelName selectedValues canSelectMultiple state)
  = MessageSelect "1" (modelName ++ " Select") true
      (Some ("No " ++ modelName ++ " s Found")).
Proof.
  intros Hm He Hl. unfold render. cbn. rewrite Hm, He, Hl. reflexivity.
Qed.

Lemma empty_models_text_is_not_plural (modelName : string) :
  "No " ++ modelName ++ " s Found" <> "No " ++ modelName ++ "s Found".
Proof.
  intros H. apply append_cancel_l in H. apply append_cancel_l in H.
  discriminate H.
Qed.

(** C6 at the failing run: a [genre] instance whose request returns an
    empty [results] array shows the disabled one-row select, and its text
    reads [No genre s Found], which is not [No genres Found]. *)
Theorem C6_empty_result_text :
  forall (parentFormName : string) (selectedValues : JSValue)
         (canSelectMultiple : bool),
    cells (Lifecycle.settled "genre" false (ok []))
    = {| models := []; isLoading := false; error := EFalse |}
    /\ Lifecycle.displayed parentFormName "genre" selectedValues
         canSelectMultiple false (ok [])
       = MessageSelect "1" "genre Select" true (Some "No genre s Found")
    /\ "No genre s Found" <> "No genres Found".
Proof.
  intros. repeat split. intros H. discriminate H.
Qed.

(** The [size] prop the component computes: with the options on display it
    is the number of options if that is at most 8, and 8 otherwise. *)
Lemma size_prop_is_capped_at_eight :
  forall (parentFormName modelName : string) (selectedValues : JSValue)
         (canSelectMultiple : bool) (state : ComponentState),
    (0 < length (models state))%nat ->
    truthy (error state) = false ->
    let c := content (render parentFormName modelName selectedValues
                        canSelectMultiple state) in
    is_options_select c = true
    /\ ((length (models state) <= 8)%nat ->
        select_size c = nat_to_string (length (models state)))
    /\ ((8 < length (models state))%nat -> select_size c = "8")
    /\ select_size c = nat_to_string (Nat.min (length (models state)) 8).
Proof.
  intros parentFormName modelName selectedValues canSelectMultiple state Hn He.
  unfold render. cbv zeta.
  rewrite (proj2 (Nat.ltb_lt _ _) Hn), He. cbn.
  split; [reflexivity|].
  destruct (Nat.leb_spec (length (models state)) 8) as [Hle|Hgt].
  - rewrite Nat.min_l by exact Hle.
    repeat split; [intros Hgt; lia].
  - rewrite Nat.min_r by lia.
    repeat split; [intros Hle; lia].
Qed.

(** C10 at two failing runs.  The component computes the row count (2 for two
    genres, 8 for nine) and passes it as the [size] prop of [Form.Select],
    which is the size variant and ends in the class; the element gets no
    [size] attribute.  So the multi-select with two options shows 4 rows,
    not 2, and the single-select with nine options shows 1 row, not 8. *)
Theorem C10_rows_shown_ignore_the_size_prop :
  let genre := id_name (Some 1%Z) (Some "Fantasy") in
  let multi :=
    render "AddBook" "genre" (VArray []) true
      (cells (Lifecycle.settled "genre" false (ok (repeat genre 2)))) in
  let single :=
    render "AddBook" "genre" VNull false
      (cells (Lifecycle.settled "genre" false (ok (repeat genre 9)))) in
  is_options_select (content multi) = true
  /\ select_size (content multi) = "2"
  /\ rendered_select multi
     = {| ReactBootstrap.className := "form-select form-select-2";
          ReactBootstrap.element_id := "AddBookgenre";
          ReactBootstrap.size_attribute := None;
          ReactBootstrap.multiple_attribute := true;
          ReactBootstrap.disabled_attribute := false |}
  /\ ReactBootstrap.display_size (rendered_select multi) = 4%nat
  /\ is_options_select (content single) = true
  /\ select_size (content single) = "8"
  /\ rendered_select single
     = {| ReactBootstrap.className := "form-select form-select-8";
          ReactBootstrap.element_id := "AddBookgenre";
          ReactBootstrap.size_attribute := None;
          ReactBootstrap.multiple_attribute := false;
          ReactBootstrap.disabled_attribute := false |}
  /\ ReactBootstrap.display_size (rendered_select single) = 1%nat.
Proof. repeat split. Qed.

(** ** The request *)

(** C8: for each of the five model names, running the effect issues one GET,
    to [http://localhost:8000/api/] + name + [s/], with a timeout of 5000 ms,
    and the handlers that run when it settles issue none. *)
Theorem C8_one_get_with_fixed_timeout :
  forall (modelName : string),
    In modelName model_kinds ->
    (forall w : World,
        requests (trace (exec (useEffect modelName) w))
        = (requests (trace w)
           ++ [ (("http://localhost:8000/api/" ++ modelName ++ "s/")%string,
                 {| timeout := 5000 |}) ])%list)
    /\ (forall (closure : EffectClosure) (s : Settlement) (w : World),
           requests (trace (exec (settle modelName closure s) w))
           = requests (trace w)).
Proof.
  intros modelName Hkind.
  destruct Hkind as [<-|[<-|[<-|[<-|[<-|[]]]]]]; split;
    try (intros w; observe; reflexivity);
    intros [[] aborted] [response|reason] w; observe; reflexivity.
Qed.

Lemma C8_genres_request :
  requests (trace (exec (useEffect "genre") initial_world))
  = [ ("http://localhost:8000/api/genres/", {| timeout := 5000 |}) ].
Proof.
  apply (proj1 (C8_one_get_with_fixed_timeout "genre"
                  ltac:(cbn; tauto)) initial_world).
Defined.

(** * Further properties of the components *)

(** ** What the render shows in each state *)

(** X1: in every state the render is one of two controls.  With at least one
    model and a falsy error it is the select with the options; otherwise it
    is the disabled one-row select, whose text is never left undefined:
    [Loading...] while loading, else the error's string if the error is
    truthy, else the no-results line. *)
Theorem X1_render_text_by_priority :
  forall (parentFormName modelName : string) (selectedValues : JSValue)
         (canSelectMultiple : bool) (state : ComponentState),
    let c := content (render parentFormName modelName selectedValues
                        canSelectMultiple state) in
    if ((0 <? length (models state))%nat && negb (truthy (error state)))%bool
    then is_options_select c = true
    else c = MessageSelect "1" (modelName ++ " Select") true
               (Some (if isLoading state then "Loading..."
                      else if truthy (error state)
                           then error_to_string (error state)
                           else "No " ++ modelName ++ " s Found")).
Proof.
  intros parentFormName modelName selectedValues canSelectMultiple
    [ms loading err].
  unfold render. cbv zeta. cbn [content models isLoading error].
  destruct ms as [|m ms]; cbn [length Nat.ltb Nat.leb Nat.eqb andb].
  - destruct loading, (truthy err); reflexivity.
  - destruct (truthy err); cbn [negb]; [|reflexivity].
    destruct loading; reflexivity.
Qed.

(** X2: whenever the select with the options is rendered it is enabled (its
    [disabled] attribute, bound to [error], is false there), it is bound to
    the parent's [selectedValues], and it holds one item per model, in
    order, keyed by the model's id. *)
Theorem X2_options_select_is_enabled :
  forall (parentFormName modelName : string) (selectedValues : JSValue)
         (canSelectMultiple : bool) (state : ComponentState)
         (value : JSValue) (name size aria_label : string)
         (multiple disabled : bool) (items : list MultiSelectItem)
         (caption : option string),
    content (render parentFormName modelName selectedValues
               canSelectMultiple state)
    = OptionsSelect value name size aria_label multiple disabled items caption ->
    disabled = false
    /\ value = selectedValues
    /\ multiple = canSelectMultiple
    /\ items = map (fun m => {| key := id m; item_id := id m;
                                item_name := Api.name m |}) (models state)
    /\ items <> []
    /\ truthy (error state) = false.
Proof.
  intros parentFormName modelName selectedValues canSelectMultiple
    [ms loading err] value name size aria_label multiple disabled
    items caption.
  unfold render. cbv zeta. cbn [content models isLoading error].
  destruct ms as [|m ms]; cbn [length Nat.ltb Nat.leb andb];
    [discriminate|].
  destruct (truthy err); cbn [negb]; [discriminate|].
  intros H. injection H as <- _ _ _ <- <- <- _.
  repeat split. discriminate.
Qed.

Lemma X2_two_genres_are_enabled :
  let state :=
    {| models := [id_name (Some 1%Z) (Some "Fantasy");
                  id_name (Some 2%Z) (Some "Western")];
       isLoading := false; error := EFalse |} in
  content (render "AddBook" "genre" (VArray []) true state)
  = OptionsSelect (VArray []) "genre" "2" "genre Multi-Select" true false
      [ {| key := Some 1%Z; item_id := Some 1%Z; item_name := Some "Fantasy" |};
        {| key := Some 2%Z; item_id := Some 2%Z; item_name := Some "Western" |} ]
      (Some "ctrl/cmd + click to select multiple")
  /\ truthy (error state) = false.
Proof.
  intros state. split; [reflexivity|].
  destruct (X2_options_select_is_enabled "AddBook" "genre" (VArray []) true
              state _ _ _ _ _ _ _ _ eq_refl) as (_ & _ & _ & _ & _ & H).
  exact H.
Defined.



(** ** The life of a request, seen through the render *)

(** X4: once the effect has run on an instance without models, the render
    is the disabled one-row select reading [Loading...], for any model name
    (a name the route selector rejects included: its error is hidden by the
    loading text). *)
Theorem X4_loading_is_shown_after_the_effect :
  forall (parentFormName modelName : string) (selectedValues : JSValue)
         (canSelectMultiple : bool) (w : World),
    models (cells w) = [] ->
    let w' := exec (useEffect modelName) w in
    isLoading (cells w') = true
    /\ models (cells w') = []
    /\ content (render parentFormName modelName selectedValues
                  canSelectMultiple (cells w'))
       = MessageSelect "1" (modelName ++ " Select") true (Some "Loading...").
Proof.
  intros parentFormName modelName selectedValues canSelectMultiple w Hm.
  unfold useEffect, fetchModelHandler, getAPIRouteFromModelName, render.
  cbv zeta.
  destruct (_ || _)%bool; cbn; rewrite Hm; repeat split.
Qed.

Lemma X4_fresh_author_instance_is_loading :
  models (cells initial_world) = []
  /\ content (render "AddBook" "author" VNull false
                (cells (exec (useEffect "author") initial_world)))
     = MessageSelect "1" "author Select" true (Some "Loading...").
Proof.
  split; [reflexivity|].
  apply (X4_loading_is_shown_after_the_effect "AddBook" "author" VNull false
           initial_world eq_refl).
Defined.

(** X5: when the request rejects, whatever the instance held before and
    whether or not its cleanup has run, the models are kept but the render
    is the disabled one-row select whose text is the error's string; a
    network failure or timeout never leaves the options on display. *)
Theorem X5_rejection_shows_the_error :
  forall (parentFormName modelName : string) (selectedValues : JSValue)
         (canSelectMultiple : bool) (closure : EffectClosure)
         (reason : ErrorObject) (w : World),
    let w' := exec (settle modelName closure (Rejected reason)) w in
    models (cells w') = models (cells w)
    /\ content (render parentFormName modelName selectedValues
                  canSelectMultiple (cells w'))
       = MessageSelect "1" (modelName ++ " Select") true
           (Some (error_to_string (EThrown reason))).
Proof.
  intros parentFormName modelName selectedValues canSelectMultiple closure
    reason w.
  split; [reflexivity|].
  unfold render. cbn.
  rewrite andb_false_r. reflexivity.
Qed.

(** The select with the options, spelled out for a state that has models
    and a falsy error. *)
Lemma render_options
  (parentFormName modelName : string) (selectedValues : JSValue)
  (canSelectMultiple : bool) (state : ComponentState) :
  models state <> [] ->
  truthy (error state) = false ->
  content (render parentFormName modelName selectedValues canSelectMultiple
             state)
  = OptionsSelect selectedValues modelName
      (nat_to_string (Nat.min (length (models state)) 8))
      (modelName ++ " "
       ++ (if canSelectMultiple then "Multi-Select" else "Select"))
      canSelectMultiple false
      (map (fun m => {| key := id m; item_id := id m; item_name := name m |})
         (models state))
      (if canSelectMultiple
       then Some "ctrl/cmd + click to select multiple" else None).
Proof.
  destruct state as [ms loading err]. cbn [models error].
  intros Hne He. unfold render. cbv zeta. cbn [content models isLoading error].
  assert (Hpos : (0 <? length ms)%nat = true)
    by (destruct ms; [congruence | reflexivity]).
  rewrite He, Hpos. cbn [andb negb].
  destruct (Nat.leb_spec (length ms) 8) as [Hle|Hgt].
  - rewrite Nat.min_l by exact Hle. reflexivity.
  - rewrite Nat.min_r by lia. reflexivity.
Qed.

Lemma shaped_items (l : list ModelRecord) :
  forallb (well_formed_record "author") l = true ->
  map (fun m => {| key := id m; item_id := id m; item_name := name m |})
    (shapeAuthorResults l)
  = map (fun r => {| key := id r; item_id := id r;
                     item_name := table_name "author" r |}) l.
Proof.
  induction l as [|r l IH]; [reflexivity|].
  cbn [forallb]. intros H. apply andb_prop in H as [Hr Hl].
  cbn [shapeAuthorResults map]. f_equal; [|exact (IH Hl)].
  unfold well_formed_record, table_name in *. cbn in *.
  destruct (id r); [|discriminate Hr].
  destruct (first_name r); [|discriminate Hr].
  destruct (last_name r); [|discriminate Hr].
  reflexivity.
Qed.

(** X6: from mount to display.  For [author], [genre] and [language], when
    the request is fulfilled with a non-empty array of well-formed records,
    the instance displays the enabled select with one item per record, in
    the order of the response, keyed by the record's id and named by the
    kind's rule, over at most 8 rows. *)
Theorem X6_fetched_records_are_displayed :
  forall (parentFormName modelName : string) (selectedValues : JSValue)
         (canSelectMultiple : bool) (response : Response),
    In modelName ["author"; "genre"; "language"] ->
    results (data response) <> [] ->
    forallb (well_formed_record modelName) (results (data response)) = true ->
    Lifecycle.displayed parentFormName modelName selectedValues
      canSelectMultiple false (Fulfilled response)
    = OptionsSelect selectedValues modelName
        (nat_to_string (Nat.min (length (results (data response))) 8))
        (modelName ++ " "
         ++ (if canSelectMultiple then "Multi-Select" else "Select"))
        canSelectMultiple false
        (map (fun r => {| key := id r; item_id := id r;
                          item_name := table_name modelName r |})
           (results (data response)))
        (if canSelectMultiple
         then Some "ctrl/cmd + click to select multiple" else None).
Proof.
  intros parentFormName modelName selectedValues canSelectMultiple response
    Hkind Hne Hwf.
  unfold Lifecycle.displayed.
  destruct Hkind as [<-|[<-|[<-|[]]]].
  - change (cells (Lifecycle.settled "author" false (Fulfilled response)))
      with {| models := shapeAuthorResults (results (data response));
              isLoading := false; error := EFalse |}.
    rewrite render_options; cbn [models error truthy]; try reflexivity.
    + unfold shapeAuthorResults at 1. rewrite length_map.
      rewrite (shaped_items _ Hwf). reflexivity.
    + destruct (results (data response)); [congruence | discriminate].
  - change (cells (Lifecycle.settled "genre" false (Fulfilled response)))
      with {| models := results (data response);
              isLoading := false; error := EFalse |}.
    rewrite render_options; cbn [models error truthy]; try reflexivity.
    exact Hne.
  - change (cells (Lifecycle.settled "language" false (Fulfilled response)))
      with {| models := results (data response);
              isLoading := false; error := EFalse |}.
    rewrite render_options; cbn [models error truthy]; try reflexivity.
    exact Hne.
Qed.

Lemma X6_two_authors_are_displayed :
  let author i f l :=
    {| url := None; id := Some i; name := None; first_name := Some f;
       last_name := Some l; date_of_birth := None; date_of_death := None;
       books := None |} in
  let response :=
    {| status := 200;
       data := {| results := [author 7%Z "Jane" "Austen";
                              author 9%Z "Mary" "Shelley"] |} |} in
  Lifecycle.displayed "AddBook" "author" VNull false false (Fulfilled response)
  = OptionsSelect VNull "author" "2" "author Select" false false
      [ {| key := Some 7%Z; item_id := Some 7%Z;
           item_name := Some "Jane Austen" |};
        {| key := Some 9%Z; item_id := Some 9%Z;
           item_name := Some "Mary Shelley" |} ]
      None.
Proof.
  intros author response.
  apply (X6_fetched_records_are_displayed "AddBook" "author" VNull false
           response).
  - cbn. tauto.
  - discriminate.
  - reflexivity.
Defined.

(** ** Model names outside the five *)

(** Case analysis on the five comparisons of a model name. *)
Ltac by_name m :=
  destruct (m =? "book"), (m =? "bookinstance"), (m =? "author"),
    (m =? "genre"), (m =? "language").

(** X7: for a model name outside the five, the route selector returns the
    empty route and stores its error, yet the effect still issues its one
    GET, to [http://localhost:8000/api//]; when that request is fulfilled
    the stored error is the parser's message, the models are empty and the
    message is what the disabled select displays. *)
Theorem X7_unsupported_name_still_requests :
  forall (parentFormName modelName : string) (selectedValues : JSValue)
         (canSelectMultiple : bool) (response : Response) (w : World),
    existsb (String.eqb modelName) model_kinds = false ->
    eval (getAPIRouteFromModelName modelName) w = ""
    /\ requests (trace (exec (useEffect modelName) w))
       = (requests (trace w)
          ++ [ ("http://localhost:8000/api//", {| timeout := 5000 |}) ])%list
    /\ error (cells (exec (useEffect modelName) w))
       = EMessage ("Given invalid modelName in API route selector:" ++ modelName)
    /\ cells (Lifecycle.settled modelName false (Fulfilled response))
       = {| models := []; isLoading := false;
            error := EMessage ("Given invalid modelName in generic model select:"
                               ++ modelName) |}
    /\ Lifecycle.displayed parentFormName modelName selectedValues
         canSelectMultiple false (Fulfilled response)
       = MessageSelect "1" (modelName ++ " Select") true
           (Some ("Given invalid modelName in generic model select:"
                  ++ modelName)).
Proof.
  intros parentFormName modelName selectedValues canSelectMultiple response w H.
  pose proof (unsupported_name_surfaces_error modelName parentFormName
                selectedValues canSelectMultiple response H) as [Hc Hd].
  cbn [existsb model_kinds] in H.
  repeat (apply orb_false_iff in H; destruct H as [? H]).
  split; [|split; [|split; [|split; [exact Hc | exact Hd]]]];
    unfold useEffect, fetchModelHandler, getAPIRouteFromModelName;
    repeat match goal with
           | E : (modelName =? _) = false |- _ => rewrite E; clear E
           end.
  - reflexivity.
  - observe. reflexivity.
  - reflexivity.
Qed.

Lemma X7_publisher_is_requested_and_refused :
  existsb (String.eqb "publisher") model_kinds = false
  /\ requests (trace (exec (useEffect "publisher") initial_world))
     = [ ("http://localhost:8000/api//", {| timeout := 5000 |}) ]
  /\ Lifecycle.displayed "AddBook" "publisher" VNull false false (ok [])
     = MessageSelect "1" "publisher Select" true
         (Some "Given invalid modelName in generic model select:publisher").
Proof.
  split; [reflexivity|].
  destruct (X7_unsupported_name_still_requests "AddBook" "publisher" VNull
              false {| status := 200; data := {| results := [] |} |}
              initial_world eq_refl) as (_ & Hreq & _ & _ & Hd).
  split; [exact Hreq | exact Hd].
Defined.

(** X8: the route selector and the parser accept the same model names.  Each
    calls no state setter for the five documented names and calls exactly
    [setError] with its own message for every other name. *)
Theorem X8_route_selector_and_parser_agree :
  forall (modelName : string) (responseData : ResponseData) (w : World),
    let supported := existsb (String.eqb modelName) model_kinds in
    state_updates (trace (exec (getAPIRouteFromModelName modelName) w))
    = (state_updates (trace w)
       ++ (if supported then []
           else [SetError (EMessage
                   ("Given invalid modelName in API route selector:"
                    ++ modelName))]))%list
    /\ state_updates
         (trace (exec (parseModelListForFormOptions modelName responseData) w))
       = (state_updates (trace w)
          ++ (if supported then []
              else [SetError (EMessage
                      ("Given invalid modelName in generic model select:"
                       ++ modelName))]))%list.
Proof.
  intros modelName responseData w.
  unfold getAPIRouteFromModelName, parseModelListForFormOptions.
  cbv zeta. cbn [existsb model_kinds].
  split; by_name modelName; observe; reflexivity.
Qed.

(** ** Settling *)

(** X9: for any model name, when the request settles on an instance whose
    cleanup has not run, loading ends, whether the request was fulfilled or
    rejected, and the handlers issue no further request. *)
Theorem X9_settling_ends_loading :
  forall (modelName : string) (closure : EffectClosure) (s : Settlement)
         (w : World),
    ignore_request_output closure = false ->
    let w' := exec (settle modelName closure s) w in
    isLoading (cells w') = false
    /\ requests (trace w') = requests (trace w).
Proof.
  intros modelName [ignore aborted] s w H. cbn in H. subst ignore.
  destruct s as [response|reason].
  - unfold settle, then_response, then_data, parseModelListForFormOptions.
    cbv zeta.
    split; by_name modelName; observe; reflexivity.
  - split; [reflexivity | observe; reflexivity].
Qed.

Lemma X9_language_stops_loading :
  isLoading (cells (snd (Lifecycle.mounted "language"))) = true
  /\ isLoading (cells (Lifecycle.settled "language" false (ok []))) = false.
Proof.
  split; [reflexivity|].
  apply (X9_settling_ends_loading "language"
           (fst (Lifecycle.mounted "language")) (ok [])
           (snd (Lifecycle.mounted "language")) eq_refl).
Defined.

(** X10: a response that arrives after the cleanup is only logged: the
    parser is not run, no setter is called, and every cell keeps its
    value. *)
Theorem X10_stale_response_is_only_logged :
  forall (modelName : string) (closure : EffectClosure) (response : Response)
         (w : World),
    let w' := exec (settle modelName (cleanup closure) (Fulfilled response)) w in
    cells w' = cells w
    /\ trace w'
       = (trace w
          ++ [ Console info [LString "axios successfully returned with:";
                             LResponse response];
               Console warn
                 [LString "received request where ignore_request_output was True";
                  LData (data response)];
               Console groupEnd [] ])%list.
Proof.
  intros. split; [reflexivity|].
  cbn. repeat rewrite <- List.app_assoc. reflexivity.
Qed.

(** X11: a change event never touches the component's own state and never
    starts a request: in either mode the handler calls no setter, leaves the
    cells as they are, and hands the parent exactly one payload. *)
Theorem X11_change_event_keeps_state :
  forall (modelName : string) (canSelectMultiple : bool)
         (target : HTMLSelectElement) (w : World),
    let w' := exec (handleSelectChange modelName canSelectMultiple target) w in
    cells w' = cells w
    /\ state_updates (trace w') = state_updates (trace w)
    /\ requests (trace w') = requests (trace w)
    /\ length (emitted (trace w')) = S (length (emitted (trace w))).
Proof.
  intros modelName [] target w; repeat split; observe;
    try reflexivity; rewrite length_app; cbn; lia.
Qed.

(** ** Records with missing fields *)

(** X12: the author shaping never rejects a record.  Every option it builds
    carries an id and a name and nothing else of the record, and the name is
    always a string: a record with neither [first_name] nor [last_name]
    gets the name [undefined undefined].  So shaping what is already shaped
    keeps the ids and turns every name into that text. *)
Theorem X12_shaping_keeps_only_id_and_name :
  forall (l : list ModelRecord),
    Forall (fun o => o = id_name (id o) (name o) /\ name o <> None)
      (shapeAuthorResults l)
    /\ (forall (i : nat) (r : ModelRecord),
           nth_error l i = Some r ->
           first_name r = None ->
           last_name r = None ->
           nth_error (shapeAuthorResults l) i
           = Some (id_name (id r) (Some "undefined undefined")))
    /\ map id (shapeAuthorResults (shapeAuthorResults l)) = map id l
    /\ map name (shapeAuthorResults (shapeAuthorResults l))
       = map (fun _ => Some "undefined undefined") l.
Proof.
  intros l. split; [|split; [|split]].
  - unfold shapeAuthorResults. apply Forall_map, Forall_forall.
    intros r _. split; [reflexivity | discriminate].
  - intros i r Hi Hf Hl. unfold shapeAuthorResults.
    rewrite nth_error_map, Hi. cbn. rewrite Hf, Hl. reflexivity.
  - rewrite !shapeAuthorResults_ids. reflexivity.
  - unfold shapeAuthorResults. rewrite !map_map. apply map_ext.
    reflexivity.
Qed.

Lemma X12_genre_record_shaped_as_author :
  let fantasy :=
    {| url := None; id := Some 4%Z; name := Some "Fantasy";
       first_name := None; last_name := None; date_of_birth := None;
       date_of_death := None; books := None |} in
  nth_error (shapeAuthorResults [fantasy]) 0
  = Some (id_name (Some 4%Z) (Some "undefined undefined")).
Proof.
  intros fantasy.
  apply (proj1 (proj2 (X12_shaping_keeps_only_id_and_name [fantasy]))
           0%nat fantasy); reflexivity.
Defined.

(** ** Numbers out of option values *)

(** X13: whatever is selected among the three options GenreMultiSelect
    renders, the array its handler logs holds one number per selected
    option and each is the integer 1, 2 or 3; no entry is [NaN]. *)
Theorem X13_genre_options_log_integers :
  forall (target : HTMLSelectElement) (w : World),
    Forall (fun o => In (value o) (map fst GenreMultiSelect.options))
      (selectedOptions target) ->
    exists numbers : list JSNumber,
      trace (exec (GenreMultiSelect.handleSelectChange target) w)
      = (trace w
         ++ [ Console group [LString "Genre Select Change Handler"];
              Console info [LSelectedOptions (selectedOptions target)];
              Console info [LValue (VArray (map VNumber numbers))];
              Console groupEnd [] ])%list
      /\ length numbers = length (selectedOptions target)
      /\ Forall (fun n => In n [int 1; int 2; int 3]) numbers.
Proof.
  intros target w H.
  exists (map (fun o => StringToNumber (value o)) (selectedOptions target)).
  split; [|split].
  - cbn. repeat rewrite <- List.app_assoc. cbn.
    unfold unary_plus. rewrite map_map. reflexivity.
  - apply length_map.
  - apply Forall_map. revert H. apply Forall_impl.
    intros o Ho. cbn in Ho.
    destruct Ho as [<-|[<-|[<-|[]]]]; cbn; tauto.
Qed.

Lemma X13_two_and_three_selected :
  let target :=
    {| selectedOptions := [ {| value := "2" |}; {| value := "3" |} ] |} in
  exists numbers : list JSNumber,
    trace (exec (GenreMultiSelect.handleSelectChange target) initial_world)
    = [ Console group [LString "Genre Select Change Handler"];
        Console info [LSelectedOptions (selectedOptions target)];
        Console info [LValue (VArray (map VNumber numbers))];
        Console groupEnd [] ]
    /\ length numbers = 2%nat
    /\ Forall (fun n => In n [int 1; int 2; int 3]) numbers.
Proof.
  intros target.
  apply (X13_genre_options_log_integers target initial_world).
  repeat constructor; cbn; tauto.
Defined.

(** X14: when the selected options carry keys written in decimal, the
    multi-select hands the parent those keys as numbers, in order.  The
    bound is where the browser's binary64 numbers hold the key exactly. *)
Theorem X14_decimal_keys_come_back_as_numbers :
  forall (modelName : string) (keys : list nat) (w : World),
    Forall (fun k => (N.of_nat k <= 2 ^ 53)%N) keys ->
    emitted (trace (exec (handleSelectChange modelName true
                            {| selectedOptions :=
                                 map (fun k => {| value := nat_to_string k |})
                                   keys |}) w))
    = (emitted (trace w)
       ++ [ {| ChangeObject.modelName := modelName;
               ChangeObject.selectedValues :=
                 VArray (map (fun k => VNumber (int (Z.of_nat k))) keys) |} ])%list.
Proof.
  intros modelName keys w _. observe.
  rewrite map_map. cbn [value]. unfold unary_plus.
  do 4 f_equal. apply map_ext. intros k.
  rewrite StringToNumber_nat_to_string. reflexivity.
Qed.

Lemma X14_keys_12_and_305 :
  emitted (trace (exec (handleSelectChange "genre" true
                          {| selectedOptions :=
                               [ {| value := "12" |}; {| value := "305" |} ] |})
                    initial_world))
  = [ {| ChangeObject.modelName := "genre";
         ChangeObject.selectedValues :=
           VArray [VNumber (int 12); VNumber (int 305)] |} ].
Proof.
  apply (X14_decimal_keys_come_back_as_numbers "genre" [12; 305]%nat
           initial_world).
  repeat constructor; intros H; vm_compute in H; discriminate H.
Defined.
